(** * CitationSleuth: PubMed usage finder and markdown table renderer

    A shallow embedding of [PubMedCitationSleuth] (CitationSleuth.py):
    [search_for_usages], [fetch_article_info] and
    [format_top_usages_as_markdown], with the properties the
    specification states about them.

    Conventions.
    - A Python [str] is a [string]; its characters are Rocq's [ascii]
      (code points 0..255).
    - A Python [dict] with [str] keys whose order is never observed is a
      [gmap string _]; a dict coming out of [json.loads], whose keys the
      program may iterate over, is an association list in insertion
      order.
    - The network is a parameter: [requests_get] maps a request and the
      state of the outside world to an exception or a response, and a new
      state of the world.  The program threads that state, together with
      the sequence of requests it has sent, through an error/state monad. *)

From Stdlib Require Import Ascii String ZArith List Lia.
From stdpp Require Import base option strings list gmap pretty.

Set Warnings "-register-all".

(** ** Python values *)

(** The values [json.loads] can produce; these are the only Python objects
    that reach the program from outside.  A [float] is carried by its
    [repr], which is all the program can observe of it. *)
Inductive pyobj : Type :=
  | PyNone
  | PyBool (b : bool)
  | PyInt (z : Z)
  | PyFloat (repr : string)
  | PyStr (s : string)
  | PyList (items : list pyobj)
  | PyDict (items : list (string * pyobj)).

(** Exceptions that can leave the program.  [RequestException] stands for
    whatever [requests.get] raises (connection refused, timeout, DNS
    failure ...); its payload identifies the exception object. *)
Inductive exn : Type :=
  | RequestException (what : string)
  | JSONDecodeError
  | AttributeError (what : string)
  | TypeError (what : string)
  | KeyError (key : string).

Inductive result (A : Type) : Type :=
  | Ok (a : A)
  | Raise (e : exn).
Arguments Ok {A} a.
Arguments Raise {A} e.

(** *** Characters and strings *)

Definition newline : ascii := "010"%char.
Definition nl : string := String newline EmptyString.
Definition squote : ascii := "039"%char.
Definition dquote : ascii := "034"%char.
Definition backslash : ascii := "092"%char.

Fixpoint occurs (c : ascii) (s : string) : bool :=
  match s with
  | EmptyString => false
  | String a s' => Ascii.eqb a c || occurs c s'
  end.

(** [sep.join(parts)] *)
Fixpoint join (sep : string) (parts : list string) : string :=
  match parts with
  | [] => EmptyString
  | [p] => p
  | p :: ps => p +:+ sep +:+ join sep ps
  end.

(** [list(s)]: the one-character strings of [s]. *)
Fixpoint chars (s : string) : list string :=
  match s with
  | EmptyString => []
  | String a s' => String a EmptyString :: chars s'
  end.

(** *** [repr] and [str] of a value *)

Definition hex_digit (n : N) : ascii :=
  ascii_of_N (if (n <? 10)%N then 48 + n else 87 + n)%N.

Definition hex2 (n : N) : string :=
  String (hex_digit (n / 16)) (String (hex_digit (n mod 16)) EmptyString).

(** [str.isprintable] on the code points 128..255: the C1 controls, the
    no-break space (160) and the soft hyphen (173) are not printable. *)
Definition printable_high (n : N) : bool :=
  ((160 <? n) && negb (n =? 173))%N.

Definition repr_char (quote c : ascii) : string :=
  let n := N_of_ascii c in
  if Ascii.eqb c quote || Ascii.eqb c backslash then String backslash (String c EmptyString)
  else if (n =? 9)%N then "\t"
  else if (n =? 10)%N then "\n"
  else if (n =? 13)%N then "\r"
  else if ((n <? 32) || (n =? 127))%N then "\x" +:+ hex2 n
  else if (n <? 127)%N then String c EmptyString
  else if printable_high n then String c EmptyString
  else "\x" +:+ hex2 n.

Fixpoint repr_chars (quote : ascii) (s : string) : string :=
  match s with
  | EmptyString => EmptyString
  | String c s' => repr_char quote c +:+ repr_chars quote s'
  end.

(** [repr(s)] for a [str]: single quotes, unless the string holds a single
    quote and no double quote. *)
Definition repr_str (s : string) : string :=
  let quote := if occurs squote s && negb (occurs dquote s) then dquote else squote in
  String quote (repr_chars quote s) +:+ String quote EmptyString.

Fixpoint repr (v : pyobj) : string :=
  match v with
  | PyNone => "None"
  | PyBool true => "True"
  | PyBool false => "False"
  | PyInt z => pretty z
  | PyFloat r => r
  | PyStr s => repr_str s
  | PyList items => "[" +:+ join ", " (map repr items) +:+ "]"
  | PyDict items =>
      "{" +:+ join ", " (map (fun kv => repr_str (fst kv) +:+ ": " +:+ repr (snd kv)) items) +:+ "}"
  end.

(** [format(v, '')], what an f-string field [{v}] expands to: [str(v)],
    which is the string itself for a [str] and [repr(v)] otherwise. *)
Definition format_value (v : pyobj) : string :=
  match v with
  | PyStr s => s
  | _ => repr v
  end.

(** ** Parsed XML: the tree BeautifulSoup builds

    [NavigableString] covers text and CDATA sections, the strings [Tag.text]
    collects; [Comment] covers the string nodes it leaves out (comments,
    processing instructions, declarations).  [name] is [Tag.name] (prefix
    included) and [attrs] is [Tag.attrs]. *)
Inductive node : Type :=
  | NavigableString (s : string)
  | Comment (s : string)
  | Tag (name : string) (attrs : gmap string string) (contents : list node).

(** [Tag.descendants]: every node below, in document order; [subtree n] is
    [n] followed by its descendants. *)
Fixpoint subtree (n : node) : list node :=
  n :: match n with
       | Tag _ _ contents => flat_map subtree contents
       | _ => []
       end.

Definition descendants (contents : list node) : list node :=
  flat_map subtree contents.

Definition node_contents (n : node) : list node :=
  match n with
  | Tag _ _ contents => contents
  | _ => []
  end.

(** [Tag.text]: the strings below the tag, concatenated. *)
Definition text (n : node) : string :=
  String.concat EmptyString
    (omap (fun d => match d with NavigableString s => Some s | _ => None end)
          (descendants (node_contents n))).

(** Does [n] pass the filter of [find(name, {attr: value})]? *)
Definition matches (name attr value : string) (n : node) : bool :=
  match n with
  | Tag nm attrs _ => String.eqb nm name && bool_decide (attrs !! attr = Some value)
  | _ => false
  end.

(** [soup.find(name, {attr: value})]: the first descendant, in document
    order, that passes the filter, or [None]. *)
Definition find (soup : list node) (name attr value : string) : option node :=
  List.find (matches name attr value) (descendants soup).

(** Truth value of what [find] returns: [None] is false, a [Tag] is true
    whatever it contains ([Tag.__bool__]). *)
Definition found (r : option node) : bool :=
  match r with
  | Some _ => true
  | None => false
  end.

(** [r.text] on what [find] returns; [None] has no attribute [text]. *)
Definition text_of (r : option node) : result string :=
  match r with
  | Some n => Ok (text n)
  | None => Raise (AttributeError "text")
  end.

(** ** HTTP *)

Record Request : Type := mkRequest {
  url : string;
  params : list (string * pyobj)
}.

(** A response, as far as the program looks at it: [status_code] (which it
    never reads), what [response.json()] returns ([None] when the body does
    not decode and [json()] raises), and the tree
    [BeautifulSoup(response.content, 'xml')] builds from the body. *)
Record Response : Type := mkResponse {
  status_code : Z;
  json : option pyobj;
  xml : list node
}.

Definition response_json (r : Response) : result pyobj :=
  match json r with
  | Some v => Ok v
  | None => Raise JSONDecodeError
  end.

(** ** Dictionaries and iteration *)

Fixpoint assoc (key : string) (items : list (string * pyobj)) : option pyobj :=
  match items with
  | [] => None
  | (k, v) :: rest => if String.eqb k key then Some v else assoc key rest
  end.

(** [d.get(key, dflt)]; only a dict has a [get]. *)
Definition dict_get (d : pyobj) (key : string) (dflt : pyobj) : result pyobj :=
  match d with
  | PyDict items => Ok (match assoc key items with Some v => v | None => dflt end)
  | _ => Raise (AttributeError "get")
  end.

(** What [for x in v] goes through: the items of a list, the characters of
    a str, the keys of a dict; anything else is not iterable. *)
Definition iter (v : pyobj) : result (list pyobj) :=
  match v with
  | PyList items => Ok items
  | PyStr s => Ok (map PyStr (chars s))
  | PyDict items => Ok (map (fun kv => PyStr (fst kv)) items)
  | _ => Raise (TypeError "not iterable")
  end.

(** [d[key]] on an article dict. *)
Definition getitem (d : gmap string string) (key : string) : result string :=
  match d !! key with
  | Some v => Ok v
  | None => Raise (KeyError key)
  end.

(** ** Pure computations that may raise *)

Definition rbind {A B : Type} (r : result A) (k : A -> result B) : result B :=
  match r with
  | Ok a => k a
  | Raise e => Raise e
  end.

Notation "'let?' x ':=' r 'in' k" := (rbind r (fun x => k))
  (at level 10, x name, r at level 100, k at level 200).

(** ** The table renderer *)

Definition table_header : string :=
  "| Title | Publication Date | DOI | PMC Reference Count | PubMed Link |".
Definition table_rule : string :=
  "|-------|-----------------|-----|---------------------|-------------|".

(** The f-string of the loop body, once its five fields are evaluated. *)
Definition table_row (title publication_date doi pmc_ref_count pubmed_link : string) : string :=
  "| " +:+ title +:+ " | " +:+ publication_date +:+ " | " +:+ doi +:+ " | "
       +:+ pmc_ref_count +:+ " | [Link](" +:+ pubmed_link +:+ ") |" +:+ nl.

(** The [for result in search_results] loop; [markdown_table] is the string
    built so far.  The fields of the f-string are looked up left to right. *)
Fixpoint append_rows (search_results : list (gmap string string)) (markdown_table : string)
  : result string :=
  match search_results with
  | [] => Ok markdown_table
  | result :: rest =>
      let? title := getitem result "title" in
      let? publication_date := getitem result "publication_date" in
      let? doi := getitem result "doi" in
      let? pmc_ref_count := getitem result "pmc_ref_count" in
      let? pubmed_link := getitem result "pubmed_link" in
      append_rows rest
        (markdown_table +:+ table_row title publication_date doi pmc_ref_count pubmed_link)
  end.

Definition format_top_usages_as_markdown (search_results : list (gmap string string))
  : result string :=
  let markdown_table := table_header +:+ nl in
  let markdown_table := markdown_table +:+ table_rule +:+ nl in
  append_rows search_results markdown_table.

(** ** The usage finder *)

Definition esearch_url : string := "https://eutils.ncbi.nlm.nih.gov/entrez/eutils/esearch.fcgi".
Definition esummary_url : string := "https://eutils.ncbi.nlm.nih.gov/entrez/eutils/esummary.fcgi".

(** The f-string [f"https://pubmed.ncbi.nlm.nih.gov/{article_id}/"]. *)
Definition pubmed_link_of (article_id : pyobj) : string :=
  "https://pubmed.ncbi.nlm.nih.gov/" +:+ format_value article_id +:+ "/".

(** [soup.find('Item', {'Name': n}).text if soup.find('Item', {'Name': n})
    else "N/A"]: the condition is evaluated first, then one of the two
    branches. *)
Definition item_text (soup : list node) (item_name : string) : result string :=
  if found (find soup "Item" "Name" item_name)
  then text_of (find soup "Item" "Name" item_name)
  else Ok "N/A".

(** The body of [fetch_article_info] after the request. *)
Definition article_of (article_id : pyobj) (response : Response) : result (gmap string string) :=
  let soup := xml response in
  let? title := item_text soup "Title" in
  let? publication_date := item_text soup "EPubDate" in
  let? doi := item_text soup "DOI" in
  let? pmc_ref_count := item_text soup "PmcRefCount" in
  let pubmed_link := pubmed_link_of article_id in
  Ok ({[ "title" := title;
         "publication_date" := publication_date;
         "doi" := doi;
         "pmc_ref_count" := pmc_ref_count;
         "pubmed_link" := pubmed_link ]} : gmap string string).

(** The body of [search_for_usages] between the request and the loop. *)
Definition article_ids_of (response : Response) : result (list pyobj) :=
  let? search_results := response_json response in
  let? esearchresult := dict_get search_results "esearchresult" (PyDict []) in
  let? article_ids := dict_get esearchresult "idlist" (PyList []) in
  iter article_ids.

Definition esearch_request (data_source : string) : Request :=
  mkRequest esearch_url
    [("db", PyStr "pubmed"); ("term", PyStr data_source);
     ("retmode", PyStr "json"); ("retmax", PyInt 20)].

Definition esummary_request (article_id : pyobj) : Request :=
  mkRequest esummary_url
    [("db", PyStr "pubmed"); ("id", article_id); ("retmode", PyStr "xml")].

Section Finder.

(** The outside world and [requests.get]. *)
Context {World : Type}.
Variable requests_get : Request -> World -> result Response * World.

(** The state the program runs in: the world, and the requests sent so
    far, oldest first. *)
Record Net : Type := mkNet {
  world : World;
  sent : list Request
}.

Definition M (A : Type) : Type := Net -> result A * Net.

Definition ret {A : Type} (a : A) : M A := fun n => (Ok a, n).

Definition bind {A B : Type} (m : M A) (k : A -> M B) : M B :=
  fun n => match m n with
           | (Ok a, n') => k a n'
           | (Raise e, n') => (Raise e, n')
           end.

Definition lift {A : Type} (r : result A) : M A := fun n => (r, n).

Definition http_get (req : Request) : M Response :=
  fun n => let (r, w) := requests_get req (world n) in
           (r, mkNet w (sent n ++ [req])).

Notation "'do' x '<-' m ';' k" := (bind m (fun x => k))
  (at level 10, x name, m at level 100, k at level 200).

Definition fetch_article_info (article_id : pyobj) : M (gmap string string) :=
  do response <- http_get (esummary_request article_id);
  lift (article_of article_id response).

(** The [for article_id in article_ids] loop; [articles] is the list built
    so far. *)
Fixpoint fetch_all (article_ids : list pyobj) (articles : list (gmap string string))
  : M (list (gmap string string)) :=
  match article_ids with
  | [] => ret articles
  | article_id :: rest =>
      do article_info <- fetch_article_info article_id;
      fetch_all rest
        (if bool_decide (article_info ≠ ∅) then articles ++ [article_info] else articles)
  end.

Definition search_for_usages (data_source : string) : M (list (gmap string string)) :=
  do response <- http_get (esearch_request data_source);
  do article_ids <- lift (article_ids_of response);
  fetch_all article_ids [].

End Finder.

Arguments Net : clear implicits.
Arguments M : clear implicits.

(** ** Vocabulary of the specification *)

(** [s.split(c)] for a one-character separator. *)
Fixpoint split (c : ascii) (s : string) : list string :=
  match s with
  | EmptyString => [EmptyString]
  | String a s' =>
      if Ascii.eqb a c then EmptyString :: split c s'
      else match split c s' with
           | piece :: pieces => String a piece :: pieces
           | [] => [String a EmptyString]
           end
  end.

(** The newline-terminated lines of [s], in order, without their newline;
    what follows the last newline is not a line. *)
Definition lines (s : string) : list string := removelast (split newline s).

(** The cells of a table line [|c1|c2|...|cn|]: what stands between
    consecutive pipes. *)
Definition cells (line : string) : list string := removelast (tail (split "|"%char line)).

Definition ends_with_newline (s : string) : Prop := exists body, s = body +:+ nl.

(** [sub in s] *)
Fixpoint contains (sub s : string) : bool :=
  String.prefix sub s ||
  match s with
  | EmptyString => false
  | String _ s' => contains sub s'
  end.

(** The five attributes of a citation record, in the order the renderer
    reads them. *)
Definition attributes : list string :=
  ["title"; "publication_date"; "doi"; "pmc_ref_count"; "pubmed_link"].

Definition fully_populated (record : gmap string string) : Prop :=
  forall k, k ∈ attributes -> is_Some (record !! k).

Definition attribute (record : gmap string string) (k : string) : string :=
  default EmptyString (record !! k).

(** The table line of a record. *)
Definition row_line (record : gmap string string) : string :=
  "| " +:+ attribute record "title" +:+ " | " +:+ attribute record "publication_date"
       +:+ " | " +:+ attribute record "doi" +:+ " | " +:+ attribute record "pmc_ref_count"
       +:+ " | [Link](" +:+ attribute record "pubmed_link" +:+ ") |".

(** No attribute of the record holds the character [c]. *)
Definition free_of (c : ascii) (record : gmap string string) : Prop :=
  forall k, k ∈ attributes -> occurs c (attribute record k) = false.

(** [n] is an [<Item Name="item_name">] element. *)
Definition is_item (item_name : string) (n : node) : Prop :=
  exists attrs contents, n = Tag "Item" attrs contents /\ attrs !! "Name" = Some item_name.

(** The detail response has no such element anywhere. *)
Definition missing (soup : list node) (item_name : string) : Prop :=
  forall d, d ∈ descendants soup -> ~ is_item item_name d.

(** The text of the first [<Item Name="item_name">] element, or the
    sentinel. *)
Definition item_or_sentinel (soup : list node) (item_name : string) : string :=
  match find soup "Item" "Name" item_name with
  | Some tag => text tag
  | None => "N/A"
  end.

(** The record that belongs to an identifier and its detail response. *)
Definition record_for (article_id : pyobj) (response : Response) : gmap string string :=
  {[ "title" := item_or_sentinel (xml response) "Title";
     "publication_date" := item_or_sentinel (xml response) "EPubDate";
     "doi" := item_or_sentinel (xml response) "DOI";
     "pmc_ref_count" := item_or_sentinel (xml response) "PmcRefCount";
     "pubmed_link" := "https://pubmed.ncbi.nlm.nih.gov/" +:+ format_value article_id +:+ "/" ]}.

(** The responses the world gives when the detail requests for
    [article_ids] are sent one after the other from state [w], and the
    state it ends in; [None] as soon as [requests_get] raises. *)
Fixpoint answers {World : Type} (requests_get : Request -> World -> result Response * World)
    (article_ids : list pyobj) (w : World) : option (list Response * World) :=
  match article_ids with
  | [] => Some ([], w)
  | article_id :: rest =>
      match requests_get (esummary_request article_id) w with
      | (Ok response, w') =>
          match answers requests_get rest w' with
          | Some (responses, w'') => Some (response :: responses, w'')
          | None => None
          end
      | (Raise _, _) => None
      end
  end.

(** The same network, with every status code [s] replaced by [f s]. *)
Definition with_status {World : Type} (f : Z -> Z)
    (requests_get : Request -> World -> result Response * World)
  : Request -> World -> result Response * World :=
  fun req w =>
    match requests_get req w with
    | (Ok r, w') => (Ok (mkResponse (f (status_code r)) (json r) (xml r)), w')
    | (Raise e, w') => (Raise e, w')
    end.

Definition success (r : Response) : Prop := (200 <= status_code r < 300)%Z.

(** What every emitted record looks like: exactly the five attributes, the
    link being the one built from some identifier. *)
Definition well_formed (record : gmap string string) : Prop :=
  dom record = list_to_set attributes /\
  exists article_id, record !! "pubmed_link" = Some (pubmed_link_of article_id).

(** ** Sample data *)

(** A world that answers from a script, whatever is asked; once the script
    is used up the connection is refused. *)
Definition scripted (req : Request) (script : list (result Response))
  : result Response * list (result Response) :=
  match script with
  | r :: rest => (r, rest)
  | [] => (Raise (RequestException "connection refused"), [])
  end.

Definition item (item_name value : string) : node :=
  Tag "Item" {[ "Name" := item_name; "Type" := "String" ]} [NavigableString value].

Definition esummary (items : list node) : list node :=
  [Tag "eSummaryResult" ∅ [Tag "DocSum" ∅ (Tag "Id" ∅ [NavigableString "123"] :: items)]].

Definition summary_full : Response :=
  mkResponse 200 None
    (esummary [item "Title" "Study X"; item "EPubDate" "2021";
               item "DOI" "10.1/xyz"; item "PmcRefCount" "5"]).

(** A detail response without [EPubDate] and [DOI]. *)
Definition summary_partial : Response :=
  mkResponse 200 None (esummary [item "Title" "Study Y"; item "PmcRefCount" "0"]).

Definition esearch (status : Z) (idlist : list pyobj) : Response :=
  mkResponse status
    (Some (PyDict [("header", PyDict [("type", PyStr "esearch")]);
                   ("esearchresult", PyDict [("count", PyStr "2"); ("idlist", PyList idlist)])]))
    [].

(** An error page: status 404, a body that is neither JSON nor a summary. *)
Definition not_found : Response :=
  mkResponse 404 None [Tag "html" ∅ [Tag "body" ∅ [NavigableString "Not Found"]]].

(** Status 429 with a JSON body, as the endpoint sends when rate-limited. *)
Definition rate_limited : Response :=
  mkResponse 429 (Some (PyDict [("error", PyStr "API rate limit exceeded")])) [].

Definition study_x : gmap string string :=
  {[ "title" := "Study X"; "publication_date" := "2021"; "doi" := "10.1/xyz";
     "pmc_ref_count" := "5"; "pubmed_link" := "https://pubmed.ncbi.nlm.nih.gov/123/" ]}.

(** A record whose title runs over two lines. *)
Definition two_line_title : gmap string string :=
  {[ "title" := "Costs" +:+ nl +:+ "and use"; "publication_date" := "2021"; "doi" := "N/A";
     "pmc_ref_count" := "5"; "pubmed_link" := "https://pubmed.ncbi.nlm.nih.gov/123/" ]}.

Definition twenty_one_ids : list pyobj :=
  map (fun i => PyStr (pretty i)) (seq 1 21).

Definition start {World : Type} (w : World) : Net World := mkNet w [].

(** Two identifiers, answered by a full and a partial summary. *)
Definition two_answers : list (result Response) :=
  [Ok (esearch 200 [PyStr "123"; PyStr "456"]); Ok summary_full; Ok summary_partial].

(** Two identifiers, the connection breaking on the second detail call. *)
Definition second_detail_fails : list (result Response) :=
  [Ok (esearch 200 [PyStr "123"; PyStr "456"]); Ok summary_full;
   Raise (RequestException "read timed out")].

(** A search answered with status 503 and a detail call answered by the
    404 page. *)
Definition all_non_success : list (result Response) :=
  [Ok (esearch 503 [PyStr "123"]); Ok not_found].

(** Twenty-one identifiers, each answered. *)
Definition over_limit : list (result Response) :=
  Ok (esearch 200 twenty_one_ids) :: repeat (Ok summary_full) 21.

Definition study_x_line : string :=
  "| Study X | 2021 | 10.1/xyz | 5 | [Link](https://pubmed.ncbi.nlm.nih.gov/123/) |".


(** ** The placeholder and the notebook cell *)

(** [print(s)]: [s] and a newline are written to standard output;
    [stdout] is the text written so far. *)
Definition print (s : string) (stdout : string) : string := stdout +:+ s +:+ nl.

(** [PubMedCitationSleuth.update_object_docs]: two [print]s; the first
    f-string ends with a newline of its own. *)
Definition update_object_docs (unity_catalog_object markdown_table : string) (stdout : string)
  : string :=
  let stdout :=
    print ("Updating documentation for " +:+ unity_catalog_object
             +:+ " with the following markdown table:" +:+ nl) stdout in
  print markdown_table stdout.

(** The last cell of the notebook: search, format, print.  An exception
    ends the cell where it is raised. *)
Definition notebook_cell {World : Type}
    (requests_get : Request -> World -> result Response * World)
    (n : Net World) (stdout : string) : result unit * Net World * string :=
  match search_for_usages requests_get "medical expenditure panel survey (MEPS)" n with
  | (Ok results, n') =>
      match format_top_usages_as_markdown results with
      | Ok markdown => (Ok tt, n', print markdown stdout)
      | Raise e => (Raise e, n', stdout)
      end
  | (Raise e, n') => (Raise e, n', stdout)
  end.

(** ** More vocabulary *)

(** The table of a sequence of records: header, rule and one line per
    record, each followed by a newline. *)
Definition table_of (records : list (gmap string string)) : string :=
  foldr (fun l acc => l +:+ nl +:+ acc) EmptyString
    (table_header :: table_rule :: map row_line records).

(** A record the table shows without ambiguity: the five attributes are
    there and hold neither a newline nor a pipe. *)
Definition plain (record : gmap string string) : Prop :=
  fully_populated record /\ free_of newline record /\ free_of "|"%char record.

(** The first attribute, in the order the renderer reads them, that the
    record does not have. *)
Definition first_missing (record : gmap string string) : option string :=
  List.find (fun k => bool_decide (record !! k = None)) attributes.

(** Two records with the same five attributes. *)
Definition same_attributes (r1 r2 : gmap string string) : Prop :=
  forall k, k ∈ attributes -> r1 !! k = r2 !! k.

(** The attributes read from the detail response, each with the [Name] of
    the element it is read from. *)
Definition extracted : list (string * string) :=
  [("title", "Title"); ("publication_date", "EPubDate");
   ("doi", "DOI"); ("pmc_ref_count", "PmcRefCount")].


(** The values a [for] loop cannot go through. *)
Definition scalar (v : pyobj) : Prop :=
  match v with
  | PyNone | PyBool _ | PyInt _ | PyFloat _ => True
  | _ => False
  end.

(** The line [update_object_docs] prints first. *)
Definition banner (unity_catalog_object : string) : string :=
  "Updating documentation for " +:+ unity_catalog_object
    +:+ " with the following markdown table:".

(** ** More sample data *)

(** A search response whose decoded body is [body]. *)
Definition search_body (body : pyobj) : Response := mkResponse 200 (Some body) [].

(** [idlist] is null. *)
Definition null_idlist : Response :=
  search_body (PyDict [("esearchresult", PyDict [("count", PyStr "0"); ("idlist", PyNone)])]).

(** [idlist] is a string, not a list of strings. *)
Definition string_idlist : Response :=
  search_body (PyDict [("esearchresult", PyDict [("idlist", PyStr "123")])]).

(** No [idlist] at all. *)
Definition no_idlist : Response :=
  search_body (PyDict [("esearchresult", PyDict [("ERROR", PyStr "Empty term")])]).

(** A summary with an empty title element followed by a second title. *)
Definition summary_empty_title : Response :=
  mkResponse 200 None
    (esummary [Tag "Item" {[ "Name" := "Title" ]} []; item "Title" "Second title"]).

(** A record without [doi] and without [pubmed_link]. *)
Definition no_doi : gmap string string :=
  {[ "title" := "Study Z"; "publication_date" := "2020"; "pmc_ref_count" := "1" ]}.

(** [study_x] with one more key. *)
Definition study_x_annotated : gmap string string := <[ "journal" := "JAMA" ]> study_x.

(** Case analysis on [k ∈ attributes]. *)
Ltac each_attribute :=
  let k := fresh "k" in
  let Hk := fresh "Hk" in
  intros k Hk; unfold attributes in Hk;
  repeat (apply elem_of_cons in Hk as [-> | Hk]);
  [.. | by apply elem_of_nil in Hk].

(** * Properties *)

(** ** One detail call *)

Lemma item_text_ok (soup : list node) (item_name : string) :
  item_text soup item_name = Ok (item_or_sentinel soup item_name).
Proof.
  unfold item_text, item_or_sentinel.
  destruct (find soup "Item" "Name" item_name); reflexivity.
Qed.

Lemma article_of_ok (article_id : pyobj) (response : Response) :
  article_of article_id response = Ok (record_for article_id response).
Proof.
  unfold article_of. rewrite !item_text_ok. reflexivity.
Qed.

Lemma record_for_lookup (article_id : pyobj) (response : Response) :
  record_for article_id response !! "title" = Some (item_or_sentinel (xml response) "Title") /\
  record_for article_id response !! "publication_date" = Some (item_or_sentinel (xml response) "EPubDate") /\
  record_for article_id response !! "doi" = Some (item_or_sentinel (xml response) "DOI") /\
  record_for article_id response !! "pmc_ref_count" = Some (item_or_sentinel (xml response) "PmcRefCount") /\
  record_for article_id response !! "pubmed_link" = Some (pubmed_link_of article_id).
Proof.
  unfold record_for, pubmed_link_of. repeat split; by simplify_map_eq.
Qed.

Lemma five_attributes_dom (title publication_date doi pmc_ref_count pubmed_link : string) :
  dom ({[ "title" := title; "publication_date" := publication_date; "doi" := doi;
          "pmc_ref_count" := pmc_ref_count; "pubmed_link" := pubmed_link ]}
       : gmap string string)
  = list_to_set attributes.
Proof. rewrite !dom_insert_L, dom_singleton_L. simpl. set_solver. Qed.

Lemma five_attributes_populated (title publication_date doi pmc_ref_count pubmed_link : string) :
  fully_populated {[ "title" := title; "publication_date" := publication_date; "doi" := doi;
                     "pmc_ref_count" := pmc_ref_count; "pubmed_link" := pubmed_link ]}.
Proof.
  intros k Hk. apply elem_of_dom. rewrite five_attributes_dom.
  apply elem_of_list_to_set, Hk.
Qed.

Lemma record_for_dom (article_id : pyobj) (response : Response) :
  dom (record_for article_id response) = list_to_set attributes.
Proof. apply five_attributes_dom. Qed.

Lemma record_for_nonempty (article_id : pyobj) (response : Response) :
  record_for article_id response ≠ ∅.
Proof. unfold record_for. apply insert_non_empty. Qed.

Lemma record_for_fully_populated (article_id : pyobj) (response : Response) :
  fully_populated (record_for article_id response).
Proof. apply five_attributes_populated. Qed.

Lemma matches_is_item (item_name : string) (n : node) :
  matches "Item" "Name" item_name n = true <-> is_item item_name n.
Proof.
  unfold matches, is_item. destruct n as [s|s|nm attrs contents].
  - split; [discriminate | intros (?&?&?&?); discriminate].
  - split; [discriminate | intros (?&?&?&?); discriminate].
  - rewrite andb_true_iff, String.eqb_eq, bool_decide_eq_true. split.
    + intros [-> H]. eauto.
    + intros (a & c & Heq & H). injection Heq as -> -> ->. auto.
Qed.

Lemma find_missing (soup : list node) (item_name : string) :
  missing soup item_name <-> find soup "Item" "Name" item_name = None.
Proof.
  unfold missing, find. split.
  - intros Hm. destruct (List.find _ _) as [d|] eqn:Hf; [|reflexivity].
    apply find_some in Hf as [Hin Hd]. exfalso.
    apply (Hm d); [by apply list_elem_of_In | by apply matches_is_item].
  - intros Hf d Hin Hd. apply list_elem_of_In in Hin.
    apply (find_none _ _ Hf) in Hin. apply matches_is_item in Hd. congruence.
Qed.

Lemma missing_sentinel (soup : list node) (item_name : string) :
  missing soup item_name -> item_or_sentinel soup item_name = "N/A".
Proof.
  intros H. apply find_missing in H. unfold item_or_sentinel. by rewrite H.
Qed.

Section Runs.

Context {World : Type}.
Variable get : Request -> World -> result Response * World.

Lemma fetch_article_info_run (article_id : pyobj) (n : Net World) :
  fetch_article_info get article_id n =
  match get (esummary_request article_id) (world n) with
  | (Ok response, w) =>
      (Ok (record_for article_id response), mkNet w (sent n ++ [esummary_request article_id]))
  | (Raise e, w) => (Raise e, mkNet w (sent n ++ [esummary_request article_id]))
  end.
Proof.
  unfold fetch_article_info, bind, http_get, lift.
  destruct (get _ _) as [[response|e] w]; [|reflexivity].
  by rewrite article_of_ok.
Qed.

Lemma fetch_all_answers (article_ids : list pyobj) :
  forall (articles : list (gmap string string)) (n : Net World) responses w,
    answers get article_ids (world n) = Some (responses, w) ->
    fetch_all get article_ids articles n =
    (Ok (articles ++ zip_with record_for article_ids responses),
     mkNet w (sent n ++ map esummary_request article_ids)).
Proof.
  induction article_ids as [|article_id rest IH]; intros articles n responses w; simpl.
  - intros [= <- <-]. unfold ret. rewrite !app_nil_r. by destruct n.
  - intros H. unfold bind. rewrite fetch_article_info_run.
    destruct (get _ _) as [[response|e] w1]; [|discriminate].
    destruct (answers get rest w1) as [[rs w2]|] eqn:Hrest; [|discriminate].
    injection H as <- <-.
    rewrite bool_decide_eq_true_2 by apply record_for_nonempty.
    rewrite (IH _ _ rs w2) by exact Hrest. simpl.
    by rewrite <- !app_assoc.
Qed.

Lemma fetch_all_raises (before : list pyobj) :
  forall (after : list pyobj) (article_id : pyobj) (articles : list (gmap string string))
         (n : Net World) responses w e w',
    answers get before (world n) = Some (responses, w) ->
    get (esummary_request article_id) w = (Raise e, w') ->
    fetch_all get (before ++ article_id :: after) articles n =
    (Raise e, mkNet w' (sent n ++ map esummary_request (before ++ [article_id]))).
Proof.
  induction before as [|b rest IH]; intros after article_id articles n responses w e w'; simpl.
  - intros [= <- <-] Hget. unfold bind. rewrite fetch_article_info_run, Hget. reflexivity.
  - intros H Hget. unfold bind. rewrite fetch_article_info_run.
    destruct (get (esummary_request b) _) as [[response|e0] w1]; [|discriminate].
    destruct (answers get rest w1) as [[rs w2]|] eqn:Hrest; [|discriminate].
    injection H as <- <-.
    rewrite (IH after article_id _ _ rs w2 e w') by assumption. simpl.
    by rewrite <- !app_assoc.
Qed.

(** Whatever happens, the loop sends the detail requests of a prefix of
    the identifiers, in order; it returns only after all of them. *)
Lemma fetch_all_sent (article_ids : list pyobj) :
  forall (articles : list (gmap string string)) (n : Net World),
  exists asked,
    asked `prefix_of` article_ids /\
    sent (snd (fetch_all get article_ids articles n)) = sent n ++ map esummary_request asked /\
    forall found, fst (fetch_all get article_ids articles n) = Ok found ->
      asked = article_ids /\ length found = length articles + length article_ids.
Proof.
  induction article_ids as [|article_id rest IH]; intros articles n; simpl.
  - exists []. split; [done|]. split; [by rewrite app_nil_r|].
    intros found [= <-]. split; [done | lia].
  - unfold bind. rewrite fetch_article_info_run.
    destruct (get _ _) as [[response|e] w1].
    + rewrite bool_decide_eq_true_2 by apply record_for_nonempty.
      destruct (IH (articles ++ [record_for article_id response])
                   (mkNet w1 (sent n ++ [esummary_request article_id])))
        as (asked & Hpre & Hsent & Hok).
      exists (article_id :: asked). split; [by apply prefix_cons|].
      split; [rewrite Hsent; simpl; by rewrite <- app_assoc|].
      intros found Hf. destruct (Hok found Hf) as [-> Hlen].
      split; [done|]. rewrite Hlen, length_app. simpl. lia.
    + exists [article_id]. split; [apply prefix_cons, prefix_nil|].
      split; [done|]. intros found [=].
Qed.

Lemma search_for_usages_run (data_source : string) (n : Net World) :
  search_for_usages get data_source n =
  match get (esearch_request data_source) (world n) with
  | (Ok response, w) =>
      match article_ids_of response with
      | Ok article_ids =>
          fetch_all get article_ids [] (mkNet w (sent n ++ [esearch_request data_source]))
      | Raise e => (Raise e, mkNet w (sent n ++ [esearch_request data_source]))
      end
  | (Raise e, w) => (Raise e, mkNet w (sent n ++ [esearch_request data_source]))
  end.
Proof.
  unfold search_for_usages, bind, http_get, lift.
  destruct (get _ _) as [[response|e] w]; [|reflexivity].
  destruct (article_ids_of response); reflexivity.
Qed.

End Runs.

(** ** The status code is never read *)

Lemma fetch_all_with_status {World : Type} (f : Z -> Z)
    (get : Request -> World -> result Response * World) (article_ids : list pyobj) :
  forall articles n,
    fetch_all (with_status f get) article_ids articles n = fetch_all get article_ids articles n.
Proof.
  induction article_ids as [|article_id rest IH]; intros articles n; simpl; [reflexivity|].
  unfold bind. rewrite !fetch_article_info_run. unfold with_status.
  destruct (get _ _) as [[response|e] w]; [|reflexivity].
  change (record_for article_id (mkResponse _ _ _)) with (record_for article_id response).
  destruct (bool_decide _); apply IH.
Qed.

Lemma search_for_usages_with_status {World : Type} (f : Z -> Z)
    (get : Request -> World -> result Response * World) (data_source : string) (n : Net World) :
  search_for_usages (with_status f get) data_source n = search_for_usages get data_source n.
Proof.
  rewrite !search_for_usages_run. unfold with_status at 1.
  destruct (get _ _) as [[response|e] w]; [|reflexivity].
  change (article_ids_of (mkResponse _ _ _)) with (article_ids_of response).
  destruct (article_ids_of response); [apply fetch_all_with_status | reflexivity].
Qed.

(** ** Splitting strings *)

Section Splitting.

#[local] Arguments String.append : simpl nomatch.

Lemma append_assoc (s1 s2 s3 : string) : (s1 +:+ s2) +:+ s3 = s1 +:+ (s2 +:+ s3).
Proof. induction s1 as [|a s1 IH]; simpl; [reflexivity | by rewrite IH]. Qed.

Lemma append_empty_r (s : string) : s +:+ EmptyString = s.
Proof. induction s as [|a s IH]; simpl; [reflexivity | by rewrite IH]. Qed.

Lemma occurs_append (c : ascii) (s1 s2 : string) :
  occurs c (s1 +:+ s2) = occurs c s1 || occurs c s2.
Proof.
  induction s1 as [|a s1 IH]; simpl; [reflexivity|].
  by rewrite IH, orb_assoc.
Qed.

Lemma split_whole (c : ascii) (s : string) : occurs c s = false -> split c s = [s].
Proof.
  induction s as [|a s IH]; simpl; [reflexivity|].
  intros H. apply orb_false_iff in H as [Ha Hs]. by rewrite Ha, IH.
Qed.

Lemma split_at (c : ascii) (s1 s2 : string) :
  occurs c s1 = false -> split c (s1 +:+ String c s2) = s1 :: split c s2.
Proof.
  induction s1 as [|a s1 IH]; simpl.
  - by rewrite Ascii.eqb_refl.
  - intros H. apply orb_false_iff in H as [Ha Hs]. by rewrite Ha, IH.
Qed.

(** A cell [pre t post] followed by the separator. *)
Lemma split_cell (c : ascii) (pre t post rest : string) :
  occurs c pre = false -> occurs c t = false -> occurs c post = false ->
  split c (pre +:+ t +:+ post +:+ String c rest) = (pre +:+ t +:+ post) :: split c rest.
Proof.
  intros Hpre Ht Hpost.
  rewrite <- (append_assoc t post), <- (append_assoc pre (t +:+ post)).
  apply split_at. by rewrite !occurs_append, Hpre, Ht, Hpost.
Qed.

Lemma split_lines (ls : list string) (rest : string) :
  Forall (fun l => occurs newline l = false) ls ->
  split newline (foldr (fun l acc => l +:+ nl +:+ acc) rest ls) = ls ++ split newline rest.
Proof.
  induction 1 as [|l ls Hl _ IH]; [reflexivity|].
  change (split newline (l +:+ String newline (foldr (fun l acc => l +:+ nl +:+ acc) rest ls))
          = l :: (ls ++ split newline rest)).
  by rewrite split_at, IH.
Qed.

End Splitting.

(** ** Rendering *)

Lemma getitem_attribute (record : gmap string string) (k : string) :
  fully_populated record -> k ∈ attributes -> getitem record k = Ok (attribute record k).
Proof.
  intros Hr Hk. destruct (Hr k Hk) as [v Hv]. unfold getitem, attribute. by rewrite Hv.
Qed.

Lemma table_row_line (record : gmap string string) :
  table_row (attribute record "title") (attribute record "publication_date")
            (attribute record "doi") (attribute record "pmc_ref_count")
            (attribute record "pubmed_link")
  = row_line record +:+ nl.
Proof. unfold table_row, row_line. by rewrite !append_assoc. Qed.

Lemma append_rows_ok (records : list (gmap string string)) :
  Forall fully_populated records ->
  forall markdown_table,
    append_rows records markdown_table =
    Ok (markdown_table +:+ foldr (fun l acc => l +:+ nl +:+ acc) EmptyString (map row_line records)).
Proof.
  induction 1 as [|record records Hr _ IH]; intros markdown_table; cbn [append_rows map foldr].
  - by rewrite append_empty_r.
  - rewrite !getitem_attribute by (assumption || (unfold attributes; set_solver)).
    cbn [rbind]. rewrite IH, table_row_line. by rewrite !append_assoc.
Qed.

Lemma format_ok (records : list (gmap string string)) :
  Forall fully_populated records ->
  format_top_usages_as_markdown records =
  Ok (foldr (fun l acc => l +:+ nl +:+ acc) EmptyString
        (table_header :: table_rule :: map row_line records)).
Proof.
  intros H. unfold format_top_usages_as_markdown. rewrite append_rows_ok by assumption.
  cbn [foldr]. by rewrite !append_assoc.
Qed.

Lemma unlines_ends_with_newline (l : string) (ls : list string) :
  ends_with_newline (foldr (fun l acc => l +:+ nl +:+ acc) EmptyString (l :: ls)).
Proof.
  revert l. induction ls as [|l' ls IH]; intros l; simpl.
  - exists l. reflexivity.
  - destruct (IH l') as [body Hb]. exists (l +:+ nl +:+ body).
    simpl in Hb. rewrite Hb. by rewrite !append_assoc.
Qed.

Lemma row_line_shape (record : gmap string string) :
  row_line record =
  EmptyString +:+ String "|"%char
    ((" " +:+ attribute record "title" +:+ " ") +:+ String "|"%char
    ((" " +:+ attribute record "publication_date" +:+ " ") +:+ String "|"%char
    ((" " +:+ attribute record "doi" +:+ " ") +:+ String "|"%char
    ((" " +:+ attribute record "pmc_ref_count" +:+ " ") +:+ String "|"%char
    ((" [Link](" +:+ attribute record "pubmed_link" +:+ ") ") +:+ String "|"%char
     EmptyString))))).
Proof. unfold row_line. rewrite !append_assoc. reflexivity. Qed.

Lemma row_line_cells (record : gmap string string) :
  free_of "|"%char record ->
  cells (row_line record) =
  [" " +:+ attribute record "title" +:+ " ";
   " " +:+ attribute record "publication_date" +:+ " ";
   " " +:+ attribute record "doi" +:+ " ";
   " " +:+ attribute record "pmc_ref_count" +:+ " ";
   " [Link](" +:+ attribute record "pubmed_link" +:+ ") "].
Proof.
  intros Hfree.
  assert (Hk : forall k, k ∈ attributes -> occurs "|"%char (attribute record k) = false)
    by exact Hfree.
  unfold cells. rewrite row_line_shape.
  rewrite !split_at
    by (reflexivity || (rewrite !occurs_append, Hk by (unfold attributes; set_solver); reflexivity)).
  reflexivity.
Qed.

Lemma row_line_single_line (record : gmap string string) :
  free_of newline record -> occurs newline (row_line record) = false.
Proof.
  intros Hfree.
  assert (Hk : forall k, k ∈ attributes -> occurs newline (attribute record k) = false)
    by exact Hfree.
  unfold row_line.
  rewrite !occurs_append, !Hk by (unfold attributes; set_solver).
  reflexivity.
Qed.

(** ** The usage finder *)

Lemma answers_length {World : Type} (get : Request -> World -> result Response * World)
    (article_ids : list pyobj) :
  forall w responses w',
    answers get article_ids w = Some (responses, w') -> length responses = length article_ids.
Proof.
  induction article_ids as [|article_id rest IH]; intros w responses w'; simpl.
  - by intros [= <- <-].
  - destruct (get _ _) as [[response|e] w1]; [|discriminate].
    destruct (answers get rest w1) as [[rs w2]|] eqn:Hrest; [|discriminate].
    intros [= <- <-]. simpl. f_equal. eapply IH, Hrest.
Qed.

(** C1: when the search step returns a list of N identifiers and every
    detail request is answered, [search_for_usages] returns exactly N
    records, the i-th being the record of the i-th identifier and of the
    i-th detail response; nothing is dropped, since the dict
    [fetch_article_info] returns is never empty. *)
Theorem search_for_usages_one_record_per_identifier {World : Type}
    (get : Request -> World -> result Response * World)
    (data_source : string) (n : Net World)
    (response : Response) (w : World) (article_ids : list pyobj)
    (responses : list Response) (w' : World) :
  get (esearch_request data_source) (world n) = (Ok response, w) ->
  article_ids_of response = Ok article_ids ->
  answers get article_ids w = Some (responses, w') ->
  exists articles,
    fst (search_for_usages get data_source n) = Ok articles /\
    length articles = length article_ids /\
    (forall i article_id, article_ids !! i = Some article_id ->
       exists detail, responses !! i = Some detail /\
                      articles !! i = Some (record_for article_id detail)) /\
    (forall article_id m info m',
       fetch_article_info get article_id m = (Ok info, m') -> info ≠ ∅).
Proof.
  intros Hget Hids Hans.
  exists (zip_with record_for article_ids responses).
  pose proof (answers_length _ _ _ _ _ Hans) as Hlen.
  split; [|split; [|split]].
  - rewrite search_for_usages_run, Hget, Hids.
    by rewrite (fetch_all_answers get article_ids [] _ responses w').
  - rewrite length_zip_with. lia.
  - intros i article_id Hi.
    destruct (lookup_lt_is_Some_2 responses i) as [detail Hd].
    { rewrite Hlen. eapply lookup_lt_Some, Hi. }
    exists detail. split; [exact Hd|].
    rewrite lookup_zip_with, Hi. simpl. by rewrite Hd.
  - intros article_id m info m'. rewrite fetch_article_info_run.
    destruct (get (esummary_request article_id) (world m)) as [[detail|e] w1]; [|discriminate].
    intros [= <- _]. apply record_for_nonempty.
Qed.

Lemma search_for_usages_one_record_per_identifier_witness :
  exists articles,
    fst (search_for_usages scripted "meps" (start two_answers)) = Ok articles /\
    length articles = 2 /\
    articles !! 0 = Some (record_for (PyStr "123") summary_full) /\
    articles !! 1 = Some (record_for (PyStr "456") summary_partial).
Proof.
  destruct (search_for_usages_one_record_per_identifier scripted "meps" (start two_answers)
              (esearch 200 [PyStr "123"; PyStr "456"]) [Ok summary_full; Ok summary_partial]
              [PyStr "123"; PyStr "456"] [summary_full; summary_partial] []
              eq_refl eq_refl eq_refl)
    as (articles & Hrun & Hlen & Hith & _).
  exists articles. split; [exact Hrun|]. split; [exact Hlen|]. split.
  - destruct (Hith 0 (PyStr "123") eq_refl) as (detail & Hd & Ha).
    injection Hd as <-. exact Ha.
  - destruct (Hith 1 (PyStr "456") eq_refl) as (detail & Hd & Ha).
    injection Hd as <-. exact Ha.
Defined.

(** C2: whenever the detail request is answered, [fetch_article_info]
    returns a record and does not raise; each of the four extractable
    fields that is missing from the response is the sentinel "N/A" in that
    record. *)
Theorem missing_fields_become_sentinel {World : Type}
    (get : Request -> World -> result Response * World)
    (article_id : pyobj) (n : Net World) (response : Response) (w : World) :
  get (esummary_request article_id) (world n) = (Ok response, w) ->
  exists info,
    fetch_article_info get article_id n
      = (Ok info, mkNet w (sent n ++ [esummary_request article_id])) /\
    (missing (xml response) "Title" -> info !! "title" = Some "N/A") /\
    (missing (xml response) "EPubDate" -> info !! "publication_date" = Some "N/A") /\
    (missing (xml response) "DOI" -> info !! "doi" = Some "N/A") /\
    (missing (xml response) "PmcRefCount" -> info !! "pmc_ref_count" = Some "N/A").
Proof.
  intros Hget. exists (record_for article_id response).
  rewrite fetch_article_info_run, Hget.
  destruct (record_for_lookup article_id response) as (Ht & Hd & Hdoi & Hc & _).
  split; [reflexivity|].
  repeat split; intros Hm; apply missing_sentinel in Hm; congruence.
Qed.

Lemma missing_fields_become_sentinel_witness :
  exists info,
    fst (fetch_article_info scripted (PyStr "456") (start [Ok summary_partial])) = Ok info /\
    info !! "publication_date" = Some "N/A" /\
    info !! "doi" = Some "N/A".
Proof.
  destruct (missing_fields_become_sentinel scripted (PyStr "456") (start [Ok summary_partial])
              summary_partial [] eq_refl)
    as (info & Hrun & _ & Hdate & Hdoi & _).
  exists info. split; [by rewrite Hrun|].
  split; [apply Hdate | apply Hdoi]; apply find_missing; vm_compute; reflexivity.
Defined.

(** C3: when the search response holds no identifier, [search_for_usages]
    returns the empty list, having sent the search request only, and
    [format_top_usages_as_markdown] of the empty list is the header line
    and the rule line, nothing else. *)
Theorem no_identifiers_header_only {World : Type}
    (get : Request -> World -> result Response * World)
    (data_source : string) (n : Net World) (response : Response) (w : World) :
  get (esearch_request data_source) (world n) = (Ok response, w) ->
  article_ids_of response = Ok [] ->
  search_for_usages get data_source n
    = (Ok [], mkNet w (sent n ++ [esearch_request data_source])) /\
  format_top_usages_as_markdown [] = Ok (table_header +:+ nl +:+ table_rule +:+ nl) /\
  lines (table_header +:+ nl +:+ table_rule +:+ nl) = [table_header; table_rule].
Proof.
  intros Hget Hids. split; [|split].
  - by rewrite search_for_usages_run, Hget, Hids.
  - reflexivity.
  - reflexivity.
Qed.

Lemma no_identifiers_header_only_witness :
  search_for_usages scripted "meps" (start [Ok (esearch 200 [])])
    = (Ok [], mkNet [] [esearch_request "meps"]) /\
  format_top_usages_as_markdown [] = Ok (table_header +:+ nl +:+ table_rule +:+ nl) /\
  lines (table_header +:+ nl +:+ table_rule +:+ nl) = [table_header; table_rule].
Proof.
  exact (no_identifiers_header_only scripted "meps" (start [Ok (esearch 200 [])])
           (esearch 200 []) [] eq_refl eq_refl).
Defined.

(** C4: the link of a record is the fixed base URL, the identifier and a
    closing slash, whatever the detail response holds; for the identifier
    "123" it is https://pubmed.ncbi.nlm.nih.gov/123/. *)
Theorem pubmed_link_from_identifier {World : Type}
    (get : Request -> World -> result Response * World)
    (article_id : pyobj) (n : Net World) (response : Response) (w : World) :
  get (esummary_request article_id) (world n) = (Ok response, w) ->
  (exists info,
     fst (fetch_article_info get article_id n) = Ok info /\
     info !! "pubmed_link"
       = Some ("https://pubmed.ncbi.nlm.nih.gov/" +:+ format_value article_id +:+ "/")) /\
  pubmed_link_of (PyStr "123") = "https://pubmed.ncbi.nlm.nih.gov/123/".
Proof.
  intros Hget. split; [|reflexivity].
  exists (record_for article_id response).
  rewrite fetch_article_info_run, Hget. split; [reflexivity|].
  apply record_for_lookup.
Qed.

Lemma pubmed_link_from_identifier_witness :
  exists info,
    fst (fetch_article_info scripted (PyStr "123") (start [Ok not_found])) = Ok info /\
    info !! "pubmed_link" = Some "https://pubmed.ncbi.nlm.nih.gov/123/".
Proof.
  exact (proj1 (pubmed_link_from_identifier scripted (PyStr "123") (start [Ok not_found])
                  not_found [] eq_refl)).
Defined.

Lemma pubmed_link_not_sentinel (article_id : pyobj) : pubmed_link_of article_id ≠ "N/A".
Proof. unfold pubmed_link_of. intros H. discriminate H. Qed.

Lemma record_for_well_formed (article_id : pyobj) (response : Response) :
  well_formed (record_for article_id response).
Proof.
  split; [apply record_for_dom|]. exists article_id. apply record_for_lookup.
Qed.

Lemma fetch_all_well_formed {World : Type} (get : Request -> World -> result Response * World)
    (article_ids : list pyobj) :
  forall articles n found n',
    Forall well_formed articles ->
    fetch_all get article_ids articles n = (Ok found, n') ->
    Forall well_formed found.
Proof.
  induction article_ids as [|article_id rest IH]; intros articles n found n' Hacc; simpl.
  - by intros [= <- _].
  - unfold bind. rewrite fetch_article_info_run.
    destruct (get _ _) as [[response|e] w1]; [|discriminate].
    apply IH. destruct (bool_decide _); [|assumption].
    apply Forall_app. split; [assumption|].
    constructor; [apply record_for_well_formed | constructor].
Qed.

(** C5: [fetch_article_info] returns a record whenever its request is
    answered, and every record it returns has exactly the five
    attributes title, publication_date, doi, pmc_ref_count and
    pubmed_link, the link being the one built from the identifier and
    never the sentinel; so has every record [search_for_usages] returns. *)
Theorem records_fully_populated {World : Type}
    (get : Request -> World -> result Response * World) :
  (forall article_id n response w,
     get (esummary_request article_id) (world n) = (Ok response, w) ->
     exists info, fst (fetch_article_info get article_id n) = Ok info) /\
  (forall article_id n info n',
     fetch_article_info get article_id n = (Ok info, n') ->
     dom info = list_to_set attributes /\
     fully_populated info /\
     info !! "pubmed_link" = Some (pubmed_link_of article_id) /\
     pubmed_link_of article_id ≠ "N/A") /\
  (forall data_source n articles n',
     search_for_usages get data_source n = (Ok articles, n') ->
     Forall well_formed articles /\ Forall fully_populated articles).
Proof.
  split; [|split].
  - intros article_id n response w Hget. rewrite fetch_article_info_run, Hget. eauto.
  - intros article_id n info n'. rewrite fetch_article_info_run.
    destruct (get _ _) as [[response|e] w]; [|discriminate].
    intros [= <- _]. split; [apply record_for_dom|].
    split; [apply record_for_fully_populated|].
    split; [apply record_for_lookup | apply pubmed_link_not_sentinel].
  - intros data_source n articles n'. rewrite search_for_usages_run.
    destruct (get _ _) as [[response|e] w]; [|discriminate].
    destruct (article_ids_of response) as [article_ids|e]; [|discriminate].
    intros Hrun. apply fetch_all_well_formed in Hrun; [|constructor].
    split; [exact Hrun|].
    eapply Forall_impl; [exact Hrun|].
    intros record [Hdom _] k Hk. apply elem_of_dom. rewrite Hdom.
    by apply elem_of_list_to_set.
Qed.

Lemma records_fully_populated_witness :
  (exists info,
     fst (fetch_article_info scripted (PyStr "456") (start [Ok summary_partial])) = Ok info) /\
  (dom (record_for (PyStr "456") summary_partial) = list_to_set attributes /\
   fully_populated (record_for (PyStr "456") summary_partial) /\
   record_for (PyStr "456") summary_partial !! "pubmed_link"
     = Some (pubmed_link_of (PyStr "456")) /\
   pubmed_link_of (PyStr "456") ≠ "N/A") /\
  Forall well_formed [record_for (PyStr "123") summary_full;
                      record_for (PyStr "456") summary_partial] /\
  Forall fully_populated [record_for (PyStr "123") summary_full;
                          record_for (PyStr "456") summary_partial].
Proof.
  destruct (records_fully_populated scripted) as (Hreturns & Hone & Hall).
  split; [|split].
  - exact (Hreturns (PyStr "456") (start [Ok summary_partial]) summary_partial [] eq_refl).
  - apply (Hone (PyStr "456") (start [Ok summary_partial])
             _ (mkNet [] [esummary_request (PyStr "456")])).
    rewrite fetch_article_info_run. reflexivity.
  - apply (Hall "meps" (start two_answers)
             _ (mkNet [] (esearch_request "meps"
                          :: map esummary_request [PyStr "123"; PyStr "456"]))).
    rewrite search_for_usages_run. cbn [scripted start world two_answers].
    change (article_ids_of _) with (Ok [PyStr "123"; PyStr "456"] : result (list pyobj)).
    cbv iota. rewrite (fetch_all_answers scripted _ [] _ [summary_full; summary_partial] []);
      reflexivity.
Defined.

(** ** Failures *)

(** C6, as stated, fails: a non-success response is not fatal.  A search
    answered with status 429 and a JSON error body gives the empty list; a
    search answered with status 503 followed by a detail call answered
    with a 404 page gives one record, all sentinels but the link. *)
Lemma non_success_response_not_fatal :
  ~ success rate_limited /\
  fst (search_for_usages scripted "meps" (start [Ok rate_limited])) = Ok [] /\
  ~ success (esearch 503 [PyStr "123"]) /\ ~ success not_found /\
  fst (search_for_usages scripted "meps" (start all_non_success))
    = Ok [ {[ "title" := "N/A"; "publication_date" := "N/A"; "doi" := "N/A";
              "pmc_ref_count" := "N/A";
              "pubmed_link" := "https://pubmed.ncbi.nlm.nih.gov/123/" ]} ].
Proof.
  unfold success. simpl status_code.
  split; [lia|]. split; [reflexivity|]. split; [lia|]. split; [lia|].
  rewrite search_for_usages_run. cbn [scripted start world all_non_success].
  change (article_ids_of _) with (Ok [PyStr "123"] : result (list pyobj)). cbv iota.
  rewrite (fetch_all_answers scripted _ [] _ [not_found] []) by reflexivity.
  reflexivity.
Qed.

(** C6, amended: an exception raised by [requests.get], on the search call
    or on a detail call, ends [search_for_usages] at once with that very
    exception: no record is returned, no later request is sent, nothing is
    tried again.  The status code of a response is never looked at: with
    other status codes the call behaves the same. *)
Theorem transport_failure_fatal_status_ignored {World : Type}
    (get : Request -> World -> result Response * World)
    (data_source : string) (n : Net World) :
  (forall e w,
     get (esearch_request data_source) (world n) = (Raise e, w) ->
     search_for_usages get data_source n
       = (Raise e, mkNet w (sent n ++ [esearch_request data_source]))) /\
  (forall response w before article_id after responses w1 e w2,
     get (esearch_request data_source) (world n) = (Ok response, w) ->
     article_ids_of response = Ok (before ++ article_id :: after) ->
     answers get before w = Some (responses, w1) ->
     get (esummary_request article_id) w1 = (Raise e, w2) ->
     search_for_usages get data_source n
       = (Raise e,
          mkNet w2 (sent n ++ esearch_request data_source
                           :: map esummary_request (before ++ [article_id])))) /\
  (forall f, search_for_usages (with_status f get) data_source n
             = search_for_usages get data_source n).
Proof.
  split; [|split].
  - intros e w Hget. by rewrite search_for_usages_run, Hget.
  - intros response w before article_id after responses w1 e w2 Hget Hids Hans Hfail.
    rewrite search_for_usages_run, Hget, Hids.
    rewrite (fetch_all_raises get before after article_id [] _ responses w1 e w2)
      by assumption.
    simpl sent. by rewrite <- app_assoc.
  - intros f. apply search_for_usages_with_status.
Qed.

Lemma transport_failure_fatal_status_ignored_witness :
  search_for_usages scripted "meps" (start [])
    = (Raise (RequestException "connection refused"), mkNet [] [esearch_request "meps"]) /\
  search_for_usages scripted "meps" (start second_detail_fails)
    = (Raise (RequestException "read timed out"),
       mkNet [] [esearch_request "meps"; esummary_request (PyStr "123");
                 esummary_request (PyStr "456")]) /\
  search_for_usages (with_status (fun _ => 500%Z) scripted) "meps" (start two_answers)
    = search_for_usages scripted "meps" (start two_answers).
Proof.
  split; [|split].
  - exact (proj1 (transport_failure_fatal_status_ignored scripted "meps" (start []))
             (RequestException "connection refused") [] eq_refl).
  - exact (proj1 (proj2 (transport_failure_fatal_status_ignored scripted "meps"
                           (start second_detail_fails)))
             (esearch 200 [PyStr "123"; PyStr "456"])
             [Ok summary_full; Raise (RequestException "read timed out")]
             [PyStr "123"] (PyStr "456") [] [summary_full]
             [Raise (RequestException "read timed out")]
             (RequestException "read timed out") []
             eq_refl eq_refl eq_refl eq_refl).
  - exact (proj2 (proj2 (transport_failure_fatal_status_ignored scripted "meps"
                           (start two_answers))) (fun _ => 500%Z)).
Defined.

(** ** The calls made *)

(** C8, as stated, fails: the program asks for at most 20 identifiers but
    goes through all it is given.  A search response with 21 identifiers
    leads to 21 detail calls and 21 records. *)
Lemma more_than_twenty_records :
  exists articles n',
    search_for_usages scripted "meps" (start over_limit) = (Ok articles, n') /\
    length articles = 21 /\
    sent n' = esearch_request "meps" :: map esummary_request twenty_one_ids /\
    ~ length articles <= 20.
Proof.
  eexists _, _. split.
  - rewrite search_for_usages_run. cbn [scripted start world over_limit].
    change (article_ids_of _) with (Ok twenty_one_ids : result (list pyobj)). cbv iota.
    apply (fetch_all_answers scripted twenty_one_ids [] _ (repeat summary_full 21) []).
    reflexivity.
  - split; [reflexivity|]. split; [reflexivity|]. simpl. lia.
Qed.

(** C8, amended: [search_for_usages] sends one search request, carrying
    retmax = 20, and then detail requests, one after the other, for the
    identifiers of the search response in their order; when it returns, it
    has sent one for each of the N identifiers and returns N records.  N
    is whatever the search response holds: at most 20 records are returned
    when the response holds at most 20 identifiers. *)
Theorem calls_made {World : Type}
    (get : Request -> World -> result Response * World)
    (data_source : string) (n : Net World) :
  exists asked,
    sent (snd (search_for_usages get data_source n))
      = sent n ++ esearch_request data_source :: map esummary_request asked /\
    assoc "retmax" (params (esearch_request data_source)) = Some (PyInt 20) /\
    (forall response w article_ids,
       get (esearch_request data_source) (world n) = (Ok response, w) ->
       article_ids_of response = Ok article_ids ->
       asked `prefix_of` article_ids /\
       (forall articles,
          fst (search_for_usages get data_source n) = Ok articles ->
          asked = article_ids /\
          length articles = length article_ids /\
          (length article_ids <= 20 -> length articles <= 20))).
Proof.
  rewrite search_for_usages_run.
  destruct (get (esearch_request data_source) (world n)) as [[response|e] w] eqn:Hget.
  - destruct (article_ids_of response) as [article_ids|e] eqn:Hids.
    + destruct (fetch_all_sent get article_ids []
                  (mkNet w (sent n ++ [esearch_request data_source])))
        as (asked & Hpre & Hsent & Hok).
      exists asked. split; [rewrite Hsent; simpl; by rewrite <- app_assoc|].
      split; [reflexivity|].
      intros response' w' article_ids' [= <- <-]. rewrite Hids. intros [= <-].
      split; [exact Hpre|].
      intros articles Hrun. destruct (Hok articles Hrun) as [-> Hlen].
      simpl in Hlen. split; [reflexivity|]. split; [exact Hlen | lia].
    + exists []. split; [reflexivity|]. split; [reflexivity|].
      intros response' w' article_ids' [= <- <-]. rewrite Hids. discriminate.
  - exists []. split; [reflexivity|]. split; [reflexivity|]. discriminate.
Qed.

Lemma calls_made_witness :
  exists asked,
    sent (snd (search_for_usages scripted "meps" (start two_answers)))
      = esearch_request "meps" :: map esummary_request asked /\
    asked = [PyStr "123"; PyStr "456"] /\
    exists articles,
      fst (search_for_usages scripted "meps" (start two_answers)) = Ok articles /\
      length articles = 2 /\ length articles <= 20.
Proof.
  destruct (calls_made scripted "meps" (start two_answers)) as (asked & Hsent & _ & H).
  destruct (H (esearch 200 [PyStr "123"; PyStr "456"]) [Ok summary_full; Ok summary_partial]
              [PyStr "123"; PyStr "456"] eq_refl eq_refl) as [_ Hok].
  exists asked. split; [exact Hsent|].
  assert (Hrun : fst (search_for_usages scripted "meps" (start two_answers))
                 = Ok [record_for (PyStr "123") summary_full;
                       record_for (PyStr "456") summary_partial]).
  { rewrite search_for_usages_run. cbn [scripted start world two_answers].
    change (article_ids_of _) with (Ok [PyStr "123"; PyStr "456"] : result (list pyobj)).
    cbv iota.
    by rewrite (fetch_all_answers scripted _ [] _ [summary_full; summary_partial] []). }
  destruct (Hok _ Hrun) as (Hasked & Hlen & Hbound).
  split; [exact Hasked|]. eexists. split; [exact Hrun|].
  split; [exact Hlen|]. apply Hbound. simpl. lia.
Defined.

(** ** The table *)

(** C7, as stated, fails: the second line of the table is the rule under
    the header, which does not hold the row of the record. *)
Lemma second_line_is_rule :
  exists out,
    format_top_usages_as_markdown [study_x] = Ok out /\
    lines out !! 1 = Some table_rule /\
    contains study_x_line table_rule = false.
Proof. eexists. split; [vm_compute; reflexivity|]. split; vm_compute; reflexivity. Qed.

(** C7, amended: the table of the single record (Study X, 2021, 10.1/xyz,
    5, https://pubmed.ncbi.nlm.nih.gov/123/) has three lines, the header,
    the rule and, as third line, exactly
    | Study X | 2021 | 10.1/xyz | 5 | [Link](https://pubmed.ncbi.nlm.nih.gov/123/) | *)
Theorem study_x_third_line :
  exists out,
    format_top_usages_as_markdown [study_x] = Ok out /\
    lines out = [table_header; table_rule; study_x_line] /\
    exists third, lines out !! 2 = Some third /\ contains study_x_line third = true.
Proof.
  eexists. split; [vm_compute; reflexivity|].
  split; [vm_compute; reflexivity|].
  exists study_x_line. split; vm_compute; reflexivity.
Qed.

(** C9: two calls of [format_top_usages_as_markdown] on the same sequence
    of records give the same outcome, character for character. *)
Theorem format_deterministic (records : list (gmap string string))
    (first second : result string) :
  format_top_usages_as_markdown records = first ->
  format_top_usages_as_markdown records = second ->
  first = second.
Proof. intros <- <-. reflexivity. Qed.

Lemma format_deterministic_witness :
  format_top_usages_as_markdown [study_x; two_line_title]
  = format_top_usages_as_markdown [study_x; two_line_title].
Proof.
  exact (format_deterministic [study_x; two_line_title] _ _ eq_refl eq_refl).
Defined.

(** C10, as stated, fails: attributes are copied into the row as they are,
    so a record whose title holds a newline gives a table of four lines,
    not three. *)
Lemma newline_in_title_adds_line :
  Forall fully_populated [two_line_title] /\
  exists out,
    format_top_usages_as_markdown [two_line_title] = Ok out /\
    length (lines out) = 4 /\
    length (lines out) <> 2 + length [two_line_title].
Proof.
  split.
  - constructor; [apply five_attributes_populated | constructor].
  - eexists. split; [vm_compute; reflexivity|]. split; [vm_compute; reflexivity|].
    vm_compute. discriminate.
Qed.

(** C10, amended: for records that each have the five attributes, the
    table is the header line, the rule line and the line of each record,
    in order, each followed by a newline; it ends with a newline.  When no
    attribute holds a newline these are its lines, 2 + N of them.  The
    line of a record whose attributes hold no pipe has exactly five cells,
    the four attributes between spaces and [Link](pubmed_link). *)
Theorem table_shape (records : list (gmap string string)) :
  Forall fully_populated records ->
  exists out,
    format_top_usages_as_markdown records = Ok out /\
    out = foldr (fun l acc => l +:+ nl +:+ acc) EmptyString
            (table_header :: table_rule :: map row_line records) /\
    ends_with_newline out /\
    (Forall (free_of newline) records ->
       lines out = table_header :: table_rule :: map row_line records /\
       length (lines out) = 2 + length records) /\
    (forall record, record ∈ records -> free_of "|"%char record ->
       cells (row_line record) =
       [" " +:+ attribute record "title" +:+ " ";
        " " +:+ attribute record "publication_date" +:+ " ";
        " " +:+ attribute record "doi" +:+ " ";
        " " +:+ attribute record "pmc_ref_count" +:+ " ";
        " [Link](" +:+ attribute record "pubmed_link" +:+ ") "]).
Proof.
  intros Hall. eexists. split; [by apply format_ok|]. split; [reflexivity|].
  split; [apply unlines_ends_with_newline|]. split.
  - intros Hfree.
    assert (Hlines : lines (foldr (fun l acc => l +:+ nl +:+ acc) EmptyString
                              (table_header :: table_rule :: map row_line records))
                     = table_header :: table_rule :: map row_line records).
    { unfold lines. rewrite split_lines.
      - apply removelast_last.
      - constructor; [reflexivity|]. constructor; [reflexivity|].
        apply Forall_map. eapply Forall_impl; [exact Hfree|].
        intros record Hr. by apply row_line_single_line. }
    split; [exact Hlines|]. rewrite Hlines. simpl. by rewrite length_map.
  - intros record _ Hfree. by apply row_line_cells.
Qed.

Lemma study_x_free_of_newline : free_of newline study_x.
Proof. each_attribute; vm_compute; reflexivity. Qed.

Lemma study_x_free_of_pipe : free_of "|"%char study_x.
Proof. each_attribute; vm_compute; reflexivity. Qed.

Lemma table_shape_witness :
  exists out,
    format_top_usages_as_markdown [study_x] = Ok out /\
    ends_with_newline out /\
    lines out = [table_header; table_rule; row_line study_x] /\
    length (lines out) = 3 /\
    cells (row_line study_x) =
      [" Study X "; " 2021 "; " 10.1/xyz "; " 5 ";
       " [Link](https://pubmed.ncbi.nlm.nih.gov/123/) "].
Proof.
  destruct (table_shape [study_x])
    as (out & Hrun & _ & Hend & Hlines & Hcells).
  { constructor; [apply five_attributes_populated | constructor]. }
  exists out. split; [exact Hrun|]. split; [exact Hend|].
  destruct Hlines as [Hlines Hlen].
  { constructor; [apply study_x_free_of_newline | constructor]. }
  split; [exact Hlines|]. split; [exact Hlen|].
  apply (Hcells study_x); [apply list_elem_of_singleton; reflexivity | apply study_x_free_of_pipe].
Defined.

(** * Further properties *)

(** ** The renderer on incomplete records *)

Lemma first_missing_none (record : gmap string string) :
  first_missing record = None <-> fully_populated record.
Proof.
  unfold first_missing, fully_populated. split.
  - intros H k Hk. apply list_elem_of_In in Hk. apply (find_none _ _ H) in Hk.
    apply bool_decide_eq_false in Hk. by destruct (record !! k); [eauto|].
  - intros H. destruct (List.find _ attributes) as [k|] eqn:Hf; [|reflexivity].
    apply find_some in Hf as [Hin Hk]. apply bool_decide_eq_true in Hk.
    apply list_elem_of_In in Hin. destruct (H k Hin) as [v Hv]. congruence.
Qed.

(** One turn of the loop: the row is appended, unless an attribute is
    missing, in which case the first missing one is the [KeyError]. *)
Lemma append_rows_cons (record : gmap string string) (rest : list (gmap string string))
    (markdown_table : string) :
  append_rows (record :: rest) markdown_table =
  match first_missing record with
  | Some k => Raise (KeyError k)
  | None => append_rows rest (markdown_table +:+ row_line record +:+ nl)
  end.
Proof.
  rewrite <- table_row_line. cbn [append_rows].
  unfold first_missing, attributes, attribute, getitem. cbn [List.find].
  destruct (record !! "title"); cbn; [|reflexivity].
  destruct (record !! "publication_date"); cbn; [|reflexivity].
  destruct (record !! "doi"); cbn; [|reflexivity].
  destruct (record !! "pmc_ref_count"); cbn; [|reflexivity].
  destruct (record !! "pubmed_link"); cbn; reflexivity.
Qed.

Lemma append_rows_app (rs1 rs2 : list (gmap string string)) :
  forall markdown_table,
    append_rows (rs1 ++ rs2) markdown_table
    = rbind (append_rows rs1 markdown_table) (append_rows rs2).
Proof.
  induction rs1 as [|record rs1 IH]; intros markdown_table; [reflexivity|].
  change ((record :: rs1) ++ rs2) with (record :: (rs1 ++ rs2)).
  rewrite !append_rows_cons. destruct (first_missing record); [reflexivity | apply IH].
Qed.

Lemma append_rows_returns (records : list (gmap string string)) :
  forall markdown_table out,
    append_rows records markdown_table = Ok out -> Forall fully_populated records.
Proof.
  induction records as [|record rest IH]; intros markdown_table out; [constructor|].
  rewrite append_rows_cons. destruct (first_missing record) eqn:Hm; [discriminate|].
  intros H. constructor; [by apply first_missing_none | eapply IH, H].
Qed.

(** X1: the renderer returns a table exactly when every record has the
    five attributes; otherwise it raises. *)
Theorem format_returns_iff_populated (records : list (gmap string string)) :
  (exists out, format_top_usages_as_markdown records = Ok out)
  <-> Forall fully_populated records.
Proof.
  split.
  - intros [out H]. eapply append_rows_returns, H.
  - intros H. eexists. by apply format_ok.
Qed.

(** X2: when the records before [record] are complete and [record] lacks
    an attribute, the renderer raises [KeyError] for the first attribute
    it lacks, in the order title, publication_date, doi, pmc_ref_count,
    pubmed_link; what comes after is not looked at. *)
Theorem format_raises_first_missing (before after : list (gmap string string))
    (record : gmap string string) (k : string) :
  Forall fully_populated before ->
  first_missing record = Some k ->
  format_top_usages_as_markdown (before ++ record :: after) = Raise (KeyError k).
Proof.
  intros Hbefore Hk. unfold format_top_usages_as_markdown.
  rewrite append_rows_app, append_rows_ok by assumption. cbn [rbind].
  by rewrite append_rows_cons, Hk.
Qed.

Lemma format_raises_first_missing_witness :
  format_top_usages_as_markdown ([study_x] ++ no_doi :: [two_line_title])
  = Raise (KeyError "doi").
Proof.
  apply (format_raises_first_missing [study_x] [two_line_title] no_doi "doi").
  - constructor; [apply five_attributes_populated | constructor].
  - vm_compute. reflexivity.
Defined.

(** X3: the table of a longer sequence starts with the table of its
    beginning: it is that table followed by the rows of the rest. *)
Theorem format_app (rs1 rs2 : list (gmap string string)) (out : string) :
  format_top_usages_as_markdown (rs1 ++ rs2) = Ok out ->
  exists out1 rows,
    format_top_usages_as_markdown rs1 = Ok out1 /\
    append_rows rs2 EmptyString = Ok rows /\
    out = out1 +:+ rows.
Proof.
  intros H. pose proof (append_rows_returns _ _ _ H) as Hall.
  apply Forall_app in Hall as [H1 H2].
  unfold format_top_usages_as_markdown in *.
  rewrite append_rows_app, (append_rows_ok rs1) in H by assumption. cbn [rbind] in H.
  rewrite (append_rows_ok rs2) in H by assumption. injection H as <-.
  eexists _, _. split; [by apply append_rows_ok|].
  split; [by apply append_rows_ok|]. reflexivity.
Qed.

Lemma format_app_witness :
  exists out1 rows,
    format_top_usages_as_markdown [study_x] = Ok out1 /\
    append_rows [two_line_title] EmptyString = Ok rows /\
    table_of [study_x; two_line_title] = out1 +:+ rows.
Proof.
  apply (format_app [study_x] [two_line_title]).
  apply format_ok.
  constructor; [apply five_attributes_populated|].
  constructor; [apply five_attributes_populated | constructor].
Defined.

Lemma same_attributes_first_missing (r1 r2 : gmap string string) :
  same_attributes r1 r2 -> first_missing r1 = first_missing r2.
Proof.
  intros H. unfold first_missing, attributes. cbn [List.find].
  by rewrite !H by (unfold attributes; set_solver).
Qed.

Lemma same_attributes_row_line (r1 r2 : gmap string string) :
  same_attributes r1 r2 -> row_line r1 = row_line r2.
Proof.
  intros H. unfold row_line, attribute.
  by rewrite !H by (unfold attributes; set_solver).
Qed.

(** X4: the renderer reads the five attributes and nothing else: two
    sequences of records that agree on them, record by record, give the
    same table, or the same [KeyError]. *)
Theorem format_same_attributes (rs1 rs2 : list (gmap string string)) :
  Forall2 same_attributes rs1 rs2 ->
  format_top_usages_as_markdown rs1 = format_top_usages_as_markdown rs2.
Proof.
  intros H. unfold format_top_usages_as_markdown.
  generalize ((table_header +:+ nl) +:+ table_rule +:+ nl).
  induction H as [|r1 r2 rs1 rs2 Hr _ IH]; intros markdown_table; [reflexivity|].
  rewrite !append_rows_cons.
  rewrite (same_attributes_first_missing r1 r2), (same_attributes_row_line r1 r2)
    by assumption.
  destruct (first_missing r2); [reflexivity | apply IH].
Qed.

Lemma format_same_attributes_witness :
  format_top_usages_as_markdown [study_x_annotated] = format_top_usages_as_markdown [study_x].
Proof.
  apply format_same_attributes. constructor; [|constructor].
  each_attribute; vm_compute; reflexivity.
Defined.

(** ** Reading the table back *)

Section Cancel.

#[local] Arguments String.append : simpl nomatch.

Lemma length_append (s1 s2 : string) :
  String.length (s1 +:+ s2) = String.length s1 + String.length s2.
Proof. induction s1 as [|a s1 IH]; simpl; [reflexivity | by rewrite IH]. Qed.

Lemma append_inj_r (t s1 s2 : string) : s1 +:+ t = s2 +:+ t -> s1 = s2.
Proof.
  revert s2. induction s1 as [|a s1 IH]; intros [|b s2] H; simpl in H.
  - reflexivity.
  - apply (f_equal String.length) in H. simpl in H. rewrite length_append in H. lia.
  - apply (f_equal String.length) in H. simpl in H. rewrite length_append in H. lia.
  - injection H as -> H. f_equal. by apply IH.
Qed.

End Cancel.

Lemma cell_inj (pre post a b : string) : pre +:+ a +:+ post = pre +:+ b +:+ post -> a = b.
Proof. intros H. apply String.app_inj in H. by apply append_inj_r in H. Qed.

Lemma lines_table_of (records : list (gmap string string)) :
  Forall (free_of newline) records ->
  lines (table_of records) = table_header :: table_rule :: map row_line records.
Proof.
  intros Hfree. unfold lines, table_of. rewrite split_lines.
  - apply removelast_last.
  - constructor; [reflexivity|]. constructor; [reflexivity|].
    apply Forall_map. eapply Forall_impl; [exact Hfree|].
    intros record Hr. by apply row_line_single_line.
Qed.

Lemma row_line_inj (r1 r2 : gmap string string) :
  plain r1 -> plain r2 -> row_line r1 = row_line r2 -> same_attributes r1 r2.
Proof.
  intros (Hp1 & _ & Hf1) (Hp2 & _ & Hf2) Hrow.
  apply (f_equal cells) in Hrow. rewrite !row_line_cells in Hrow by assumption.
  injection Hrow as Ht Hd Hi Hc Hl.
  apply cell_inj in Ht, Hd, Hi, Hc, Hl.
  assert (Hattr : forall k, k ∈ attributes -> attribute r1 k = attribute r2 k)
    by (each_attribute; assumption).
  intros k Hk. specialize (Hattr k Hk). unfold attribute in Hattr.
  destruct (Hp1 k Hk) as [v1 Hv1], (Hp2 k Hk) as [v2 Hv2].
  rewrite Hv1, Hv2 in *. simpl in Hattr. by subst.
Qed.

(** X5: the table determines the records it was made from: two sequences
    of plain records (five attributes, no newline, no pipe in them) with
    the same table have the same length and, record by record, the same
    attributes. *)
Theorem format_injective (rs1 rs2 : list (gmap string string)) :
  Forall plain rs1 -> Forall plain rs2 ->
  format_top_usages_as_markdown rs1 = format_top_usages_as_markdown rs2 ->
  Forall2 same_attributes rs1 rs2.
Proof.
  intros H1 H2 Heq.
  assert (Hp : forall rs, Forall plain rs -> Forall fully_populated rs)
    by (intros rs Hrs; eapply Forall_impl; [exact Hrs|]; by intros r (? & _)).
  assert (Hn : forall rs, Forall plain rs -> Forall (free_of newline) rs)
    by (intros rs Hrs; eapply Forall_impl; [exact Hrs|]; by intros r (_ & ? & _)).
  rewrite !format_ok in Heq by auto.
  assert (Ht : table_of rs1 = table_of rs2) by (unfold table_of; congruence).
  clear Heq. rename Ht into Heq.
  apply (f_equal lines) in Heq. rewrite !lines_table_of in Heq by auto.
  injection Heq as Heq. clear Hp Hn.
  revert rs2 H2 Heq. induction H1 as [|r1 rs1 Hr1 _ IH]; intros [|r2 rs2] H2 Heq;
    try discriminate; [constructor|].
  cbn [map] in Heq.
  assert (Hrow : row_line r1 = row_line r2) by congruence.
  assert (Hrest : map row_line rs1 = map row_line rs2) by congruence.
  apply Forall_cons in H2 as [Hr2 H2].
  constructor; [by apply row_line_inj | by apply IH].
Qed.

Lemma format_injective_witness : Forall2 same_attributes [study_x_annotated] [study_x].
Proof.
  assert (Hx : plain study_x).
  { split; [apply five_attributes_populated|].
    split; [apply study_x_free_of_newline | apply study_x_free_of_pipe]. }
  assert (Ha : plain study_x_annotated).
  { split; [|split]; each_attribute; vm_compute; eauto. }
  apply format_injective.
  - constructor; [exact Ha | constructor].
  - constructor; [exact Hx | constructor].
  - vm_compute. reflexivity.
Defined.

(** ** Search responses of another shape *)

(** X6: the two [get] defaults: when the decoded search response is a dict
    without [esearchresult], or its [esearchresult] is a dict without
    [idlist], [search_for_usages] returns the empty list after the search
    request alone. *)
Theorem missing_keys_mean_no_identifiers {World : Type}
    (get : Request -> World -> result Response * World)
    (data_source : string) (n : Net World) (response : Response) (w : World)
    (items : list (string * pyobj)) :
  get (esearch_request data_source) (world n) = (Ok response, w) ->
  json response = Some (PyDict items) ->
  (assoc "esearchresult" items = None \/
   exists inner, assoc "esearchresult" items = Some (PyDict inner) /\
                 assoc "idlist" inner = None) ->
  search_for_usages get data_source n
    = (Ok [], mkNet w (sent n ++ [esearch_request data_source])).
Proof.
  intros Hget Hjson Hkeys. rewrite search_for_usages_run, Hget.
  unfold article_ids_of, response_json. rewrite Hjson. cbn [rbind dict_get].
  destruct Hkeys as [-> | (inner & -> & Hid)]; cbn [rbind dict_get iter].
  - reflexivity.
  - rewrite Hid. reflexivity.
Qed.

Lemma missing_keys_mean_no_identifiers_witness :
  search_for_usages scripted "meps" (start [Ok no_idlist])
    = (Ok [], mkNet [] [esearch_request "meps"]) /\
  search_for_usages scripted "meps" (start [Ok rate_limited])
    = (Ok [], mkNet [] [esearch_request "meps"]).
Proof.
  split.
  - apply (missing_keys_mean_no_identifiers scripted "meps" (start [Ok no_idlist])
             no_idlist [] _ eq_refl eq_refl).
    right. eexists. split; reflexivity.
  - apply (missing_keys_mean_no_identifiers scripted "meps" (start [Ok rate_limited])
             rate_limited [] _ eq_refl eq_refl).
    left. reflexivity.
Defined.



(** X8: the default of [get] stands in for a missing key only: when
    [idlist] is there but is null, a boolean or a number,
    [search_for_usages] raises [TypeError] before any detail request. *)
Theorem scalar_idlist_raises {World : Type}
    (get : Request -> World -> result Response * World)
    (data_source : string) (n : Net World) (response : Response) (w : World)
    (items inner : list (string * pyobj)) (idlist : pyobj) :
  get (esearch_request data_source) (world n) = (Ok response, w) ->
  json response = Some (PyDict items) ->
  assoc "esearchresult" items = Some (PyDict inner) ->
  assoc "idlist" inner = Some idlist ->
  scalar idlist ->
  search_for_usages get data_source n
    = (Raise (TypeError "not iterable"), mkNet w (sent n ++ [esearch_request data_source])).
Proof.
  intros Hget Hjson Hres Hid Hscalar. rewrite search_for_usages_run, Hget.
  unfold article_ids_of, response_json. rewrite Hjson. cbn [rbind dict_get].
  rewrite Hres. cbn [rbind dict_get]. rewrite Hid.
  destruct idlist; try reflexivity; destruct Hscalar.
Qed.

Lemma scalar_idlist_raises_witness :
  search_for_usages scripted "meps" (start [Ok null_idlist; Ok summary_full])
    = (Raise (TypeError "not iterable"), mkNet [Ok summary_full] [esearch_request "meps"]).
Proof.
  exact (scalar_idlist_raises scripted "meps" (start [Ok null_idlist; Ok summary_full])
           null_idlist [Ok summary_full] _ _ PyNone eq_refl eq_refl eq_refl eq_refl I).
Defined.

(** X9: when [idlist] is a string instead of a list, the loop goes through
    its characters: one detail request and, when they are answered, one
    record for each character. *)
Theorem string_idlist_read_by_character {World : Type}
    (get : Request -> World -> result Response * World)
    (data_source : string) (n : Net World) (response : Response) (w : World)
    (items inner : list (string * pyobj)) (s : string)
    (responses : list Response) (w' : World) :
  get (esearch_request data_source) (world n) = (Ok response, w) ->
  json response = Some (PyDict items) ->
  assoc "esearchresult" items = Some (PyDict inner) ->
  assoc "idlist" inner = Some (PyStr s) ->
  answers get (map PyStr (chars s)) w = Some (responses, w') ->
  exists articles,
    search_for_usages get data_source n
      = (Ok articles,
         mkNet w' (sent n ++ esearch_request data_source
                          :: map esummary_request (map PyStr (chars s)))) /\
    articles = zip_with record_for (map PyStr (chars s)) responses /\
    length articles = String.length s.
Proof.
  intros Hget Hjson Hres Hid Hans. eexists. split; [|split; [reflexivity|]].
  - rewrite search_for_usages_run, Hget.
    unfold article_ids_of, response_json. rewrite Hjson. cbn [rbind dict_get].
    rewrite Hres. cbn [rbind dict_get]. rewrite Hid. cbn [iter].
    rewrite (fetch_all_answers get _ [] _ responses w') by exact Hans.
    cbn [sent]. by rewrite <- app_assoc.
  - apply answers_length in Hans. rewrite length_zip_with, Hans, length_map.
    rewrite Nat.min_id. clear. induction s as [|a s IH]; simpl; [reflexivity | by rewrite IH].
Qed.

Lemma string_idlist_read_by_character_witness :
  exists articles,
    search_for_usages scripted "meps"
        (start [Ok string_idlist; Ok summary_full; Ok summary_partial; Ok not_found])
      = (Ok articles,
         mkNet [] [esearch_request "meps"; esummary_request (PyStr "1");
                   esummary_request (PyStr "2"); esummary_request (PyStr "3")]) /\
    articles = [record_for (PyStr "1") summary_full; record_for (PyStr "2") summary_partial;
                record_for (PyStr "3") not_found] /\
    length articles = 3.
Proof.
  exact (string_idlist_read_by_character scripted "meps"
           (start [Ok string_idlist; Ok summary_full; Ok summary_partial; Ok not_found])
           string_idlist [Ok summary_full; Ok summary_partial; Ok not_found] _ _ "123"
           [summary_full; summary_partial; not_found] []
           eq_refl eq_refl eq_refl eq_refl eq_refl).
Defined.

(** ** Fields that are present *)

Lemma find_first {A : Type} (p : A -> bool) (before after : list A) (x : A) :
  p x = true -> (forall d, d ∈ before -> p d = false) ->
  List.find p (before ++ x :: after) = Some x.
Proof.
  intros Hx. induction before as [|b before IH]; intros Hbefore; simpl.
  - by rewrite Hx.
  - rewrite (Hbefore b) by apply list_elem_of_here.
    apply IH. intros d Hd. apply Hbefore. by apply list_elem_of_further.
Qed.

Lemma first_item_text (soup : list node) (item_name : string)
    (before after : list node) (tag : node) :
  descendants soup = before ++ tag :: after ->
  is_item item_name tag ->
  (forall d, d ∈ before -> ~ is_item item_name d) ->
  item_or_sentinel soup item_name = text tag.
Proof.
  intros Hdoc Htag Hbefore. unfold item_or_sentinel, find. rewrite Hdoc.
  rewrite find_first; [reflexivity | by apply matches_is_item |].
  intros d Hd. destruct (matches "Item" "Name" item_name d) eqn:Hm; [|reflexivity].
  apply matches_is_item in Hm. by apply Hbefore in Hd.
Qed.

(** X10: an attribute whose element is in the detail response is the text
    of the first such element in document order, whatever that text is
    (the empty string for an empty element) and whatever follows. *)
Theorem first_item_wins {World : Type}
    (get : Request -> World -> result Response * World)
    (article_id : pyobj) (n : Net World) (response : Response) (w : World)
    (k item_name : string) (before after : list node) (tag : node) :
  get (esummary_request article_id) (world n) = (Ok response, w) ->
  (k, item_name) ∈ extracted ->
  descendants (xml response) = before ++ tag :: after ->
  is_item item_name tag ->
  (forall d, d ∈ before -> ~ is_item item_name d) ->
  exists info,
    fst (fetch_article_info get article_id n) = Ok info /\
    info !! k = Some (text tag).
Proof.
  intros Hget Hk Hdoc Htag Hbefore. exists (record_for article_id response).
  rewrite fetch_article_info_run, Hget. split; [reflexivity|].
  rewrite <- (first_item_text (xml response) item_name before after tag) by assumption.
  destruct (record_for_lookup article_id response) as (Ht & Hd & Hdoi & Hc & _).
  unfold extracted in Hk.
  repeat (apply elem_of_cons in Hk as [[= -> ->] | Hk]); try assumption.
  by apply elem_of_nil in Hk.
Qed.

Lemma first_item_wins_witness :
  exists info,
    fst (fetch_article_info scripted (PyStr "123") (start [Ok summary_empty_title])) = Ok info /\
    info !! "title" = Some EmptyString.
Proof.
  apply (first_item_wins scripted (PyStr "123") (start [Ok summary_empty_title])
           summary_empty_title [] "title" "Title"
           [Tag "eSummaryResult" ∅
              [Tag "DocSum" ∅
                 [Tag "Id" ∅ [NavigableString "123"];
                  Tag "Item" {[ "Name" := "Title" ]} []; item "Title" "Second title"]];
            Tag "DocSum" ∅
              [Tag "Id" ∅ [NavigableString "123"];
               Tag "Item" {[ "Name" := "Title" ]} []; item "Title" "Second title"];
            Tag "Id" ∅ [NavigableString "123"];
            NavigableString "123"]
           [item "Title" "Second title"; NavigableString "Second title"]
           (Tag "Item" {[ "Name" := "Title" ]} [])).
  - reflexivity.
  - unfold extracted. apply list_elem_of_here.
  - reflexivity.
  - eexists _, _. split; [reflexivity|]. vm_compute. reflexivity.
  - intros d Hd Hitem. apply matches_is_item in Hitem.
    repeat (apply elem_of_cons in Hd as [-> | Hd]); try discriminate Hitem.
    by apply elem_of_nil in Hd.
Defined.

(** X11: different string identifiers give different links. *)
Theorem pubmed_link_distinct (a b : string) :
  a <> b -> pubmed_link_of (PyStr a) <> pubmed_link_of (PyStr b).
Proof.
  intros Hab Hlink. apply Hab. unfold pubmed_link_of in Hlink. cbn [format_value] in Hlink.
  by apply cell_inj in Hlink.
Qed.

Lemma pubmed_link_distinct_witness :
  pubmed_link_of (PyStr "123") <> pubmed_link_of (PyStr "1234").
Proof. apply pubmed_link_distinct. discriminate. Defined.

(** ** Finder, renderer and printing together *)

Lemma found_records_populated {World : Type}
    (get : Request -> World -> result Response * World)
    (data_source : string) (n : Net World) (articles : list (gmap string string))
    (n' : Net World) :
  search_for_usages get data_source n = (Ok articles, n') ->
  Forall fully_populated articles.
Proof.
  rewrite search_for_usages_run.
  destruct (get _ _) as [[response|e] w]; [|discriminate].
  destruct (article_ids_of response) as [article_ids|e]; [|discriminate].
  intros Hrun. apply fetch_all_well_formed in Hrun; [|constructor].
  eapply Forall_impl; [exact Hrun|].
  intros record [Hdom _] k Hk. apply elem_of_dom. rewrite Hdom.
  by apply elem_of_list_to_set.
Qed.

(** X12: the renderer never raises on what the finder returns: the result
    of [search_for_usages] always formats to its table. *)
Theorem found_records_always_render {World : Type}
    (get : Request -> World -> result Response * World)
    (data_source : string) (n : Net World) (articles : list (gmap string string))
    (n' : Net World) :
  search_for_usages get data_source n = (Ok articles, n') ->
  format_top_usages_as_markdown articles = Ok (table_of articles).
Proof. intros Hrun. eapply format_ok, found_records_populated, Hrun. Qed.

Lemma found_records_always_render_witness :
  format_top_usages_as_markdown
    [record_for (PyStr "123") summary_full; record_for (PyStr "456") summary_partial]
  = Ok (table_of [record_for (PyStr "123") summary_full;
                  record_for (PyStr "456") summary_partial]).
Proof.
  apply (found_records_always_render scripted "meps" (start two_answers) _
           (mkNet [] (esearch_request "meps"
                      :: map esummary_request [PyStr "123"; PyStr "456"]))).
  rewrite search_for_usages_run. cbn [scripted start world two_answers].
  change (article_ids_of _) with (Ok [PyStr "123"; PyStr "456"] : result (list pyobj)).
  cbv iota.
  by rewrite (fetch_all_answers scripted _ [] _ [summary_full; summary_partial] []).
Defined.

Lemma unlines_append (ls : list string) (rest t : string) :
  foldr (fun l acc => l +:+ nl +:+ acc) rest ls +:+ t
  = foldr (fun l acc => l +:+ nl +:+ acc) (rest +:+ t) ls.
Proof.
  induction ls as [|l ls IH]; cbn [foldr]; [reflexivity|].
  by rewrite !append_assoc, IH.
Qed.

(** X13: [update_object_docs] adds to what was printed before, and what
    it adds for the table of newline-free records and a newline-free
    object name reads, line by line: the announcement, an empty line, the
    header, the rule, the rows and a final empty line. *)
Theorem update_object_docs_prints (unity_catalog_object : string)
    (records : list (gmap string string)) (markdown_table stdout : string) :
  format_top_usages_as_markdown records = Ok markdown_table ->
  Forall (free_of newline) records ->
  occurs newline unity_catalog_object = false ->
  exists printed,
    update_object_docs unity_catalog_object markdown_table stdout = stdout +:+ printed /\
    lines printed =
      banner unity_catalog_object :: EmptyString :: table_header :: table_rule
        :: map row_line records ++ [EmptyString].
Proof.
  intros Hfmt Hfree Hobj.
  pose proof (append_rows_returns _ _ _ Hfmt) as Hall.
  rewrite format_ok in Hfmt by assumption. injection Hfmt as <-.
  exists (foldr (fun l acc => l +:+ nl +:+ acc) nl
            (banner unity_catalog_object :: EmptyString :: table_header :: table_rule
               :: map row_line records)).
  split.
  - unfold update_object_docs, print, banner. cbn [foldr].
    rewrite !append_assoc, unlines_append. reflexivity.
  - unfold lines. rewrite split_lines.
    + change (split newline nl) with [EmptyString; EmptyString].
      rewrite !app_comm_cons, (app_assoc _ [EmptyString] [EmptyString]).
      apply removelast_last.
    + constructor.
      { unfold banner. by rewrite !occurs_append, Hobj. }
      constructor; [reflexivity|]. constructor; [reflexivity|].
      constructor; [reflexivity|].
      apply Forall_map. eapply Forall_impl; [exact Hfree|].
      intros record Hr. by apply row_line_single_line.
Qed.

Lemma update_object_docs_prints_witness :
  exists printed,
    update_object_docs "Machine Learning Dataset" (table_of [study_x]) "earlier output"
      = "earlier output" +:+ printed /\
    lines printed =
      ["Updating documentation for Machine Learning Dataset with the following markdown table:";
       EmptyString; table_header; table_rule; study_x_line; EmptyString].
Proof.
  apply (update_object_docs_prints "Machine Learning Dataset" [study_x]).
  - apply format_ok. constructor; [apply five_attributes_populated | constructor].
  - constructor; [apply study_x_free_of_newline | constructor].
  - reflexivity.
Defined.

(** X14: the notebook cell either prints the table of the records found,
    followed by a newline, or ends with the exception the finder raised
    and prints nothing; the renderer never makes it fail. *)
Theorem notebook_cell_prints_or_propagates {World : Type}
    (get : Request -> World -> result Response * World)
    (n : Net World) (stdout : string) :
  notebook_cell get n stdout =
  match search_for_usages get "medical expenditure panel survey (MEPS)" n with
  | (Ok articles, n') => (Ok tt, n', stdout +:+ table_of articles +:+ nl)
  | (Raise e, n') => (Raise e, n', stdout)
  end.
Proof.
  unfold notebook_cell.
  destruct (search_for_usages get _ n) as [[articles|e] n'] eqn:Hrun; [|reflexivity].
  by rewrite format_ok by (eapply found_records_populated, Hrun).
Qed.

(** X15: [search_for_usages] contacts the two E-utilities endpoints only,
    always for the database pubmed: every request it adds to those sent
    is the search request for its query or a summary request. *)
Theorem only_eutils_requests {World : Type}
    (get : Request -> World -> result Response * World)
    (data_source : string) (n : Net World) :
  exists added,
    sent (snd (search_for_usages get data_source n)) = sent n ++ added /\
    head added = Some (esearch_request data_source) /\
    forall req, req ∈ added ->
      (url req = esearch_url \/ url req = esummary_url) /\
      assoc "db" (params req) = Some (PyStr "pubmed").
Proof.
  assert (Hsummary : forall ids req, req ∈ map esummary_request ids ->
            (url req = esearch_url \/ url req = esummary_url) /\
            assoc "db" (params req) = Some (PyStr "pubmed")).
  { intros ids req Hreq. apply list_elem_of_fmap in Hreq as (id & -> & _).
    split; [by right | reflexivity]. }
  rewrite search_for_usages_run.
  destruct (get _ _) as [[response|e] w].
  - destruct (article_ids_of response) as [article_ids|e].
    + destruct (fetch_all_sent get article_ids []
                  (mkNet w (sent n ++ [esearch_request data_source])))
        as (asked & _ & Hsent & _).
      exists (esearch_request data_source :: map esummary_request asked).
      split; [rewrite Hsent; cbn [sent]; by rewrite <- app_assoc|].
      split; [reflexivity|].
      intros req [-> | Hreq]%elem_of_cons; [split; [by left | reflexivity] | eauto].
    + exists [esearch_request data_source]. split; [reflexivity|]. split; [reflexivity|].
      intros req ->%list_elem_of_singleton. split; [by left | reflexivity].
  - exists [esearch_request data_source]. split; [reflexivity|]. split; [reflexivity|].
    intros req ->%list_elem_of_singleton. split; [by left | reflexivity].
Qed.
